(** * Progress_bar: [run_parallel] and the progress wrappers

    A shallow embedding of [src/progress_bar/main.py] (and of its
    near-duplicate [src/src/progress_bar/main.py]) together with the
    properties of the parallel-execution engine.

    Python code is stateful and may raise: a computation is a function from
    the trace of observable events so far to an outcome and the extended
    trace.  The collaborators that live outside the repository
    ([concurrent.futures], [tqdm], [logging]) appear through the events they
    produce and, for the scheduler and the host, through section variables.
    A progress bar is an object: it is known by a handle that is fresh when
    the bar is built, and its counter is the number of times that handle was
    advanced. *)

From Stdlib Require Import ZArith String Ascii List Lia Permutation.
From stdpp Require Import base gmap strings list.

Open Scope string_scope.
Open Scope list_scope.

(** ** Strings: [str.lower] *)

(** A character of the model is a code point below 256.  On that range
    Python's [str.lower] moves the capital letters A..Z and the capital
    Latin-1 letters (192..222, the multiplication sign 215 apart) 32 places
    up and leaves every other code point alone. *)
Definition lower_char (c : ascii) : ascii :=
  let n := N_of_ascii c in
  if ((65 <=? n) && (n <=? 90))%N then ascii_of_N (n + 32)
  else if ((192 <=? n) && (n <=? 222) && negb (n =? 215))%N
       then ascii_of_N (n + 32)
       else c.

Fixpoint lower (s : string) : string :=
  match s with
  | EmptyString => EmptyString
  | String c rest => String (lower_char c) (lower rest)
  end.

(** ** Exceptions and outcomes *)

Inductive exn : Type :=
| ValueError (msg : string)
| NameError (name : string)
| TypeError (msg : string)
| KeyError
| RuntimeError (msg : string)
| PicklingError (msg : string).

Inductive result (A : Type) : Type :=
| Ok (a : A)
| Raise (e : exn).
Arguments Ok {A} a.
Arguments Raise {A} e.

(** The two pool classes of [concurrent.futures]. *)
Inductive ExecPool : Type := ThreadPoolExecutor | ProcessPoolExecutor.

(** The two display backends [get_corresponding_tqdm] chooses from. *)
Inductive backend : Type := notebook_tqdm | standard_tqdm.

(** What a name of the module is bound to, as far as line 109 cares: a
    dictionary keyed by futures (by their identity), or anything else. *)
Inductive pyobj (T : Type) : Type :=
| PyDict (d : list (nat * T))
| PyOther.
Arguments PyDict {T} d.
Arguments PyOther {T}.

(** An input of [run_parallel]: a collection with [__len__] (list, tuple,
    range) or a one-shot iterator (generator), on which [len] raises. *)
Inductive iterable (T : Type) : Type :=
| Sized (items : list T)
| Unsized (items : list T).
Arguments Sized {T} items.
Arguments Unsized {T} items.

Definition items_of {T} (it : iterable T) : list T :=
  match it with Sized xs => xs | Unsized xs => xs end.

(** A future as [pool.submit] returns it: its identity, the item it was
    submitted with and what the call of the user function ends in. *)
Record Future (T : Type) : Type := mkFuture {
  fut_id : nat;
  fut_item : T;
  fut_outcome : result T
}.
Arguments mkFuture {T} _ _ _.
Arguments fut_id {T} _.
Arguments fut_item {T} _.
Arguments fut_outcome {T} _.

(** Observable events, in the order they happen. *)
Inductive event (T : Type) : Type :=
| EvLen                                   (* len(iterable) evaluated *)
| EvPool (k : ExecPool) (workers : Z)     (* pool constructed *)
| EvIter                                  (* iteration of the input begun *)
| EvSubmit (item : T)                     (* pool.submit(func, item) *)
| EvMonitor (h : nat) (b : backend) (desc colour : option string)
            (total : option nat)          (* bar [h] built *)
| EvAdvance (h : nat)                     (* bar [h] counts one iteration *)
| EvLog (item : T) (e : exn)              (* logger.error *)
| EvShutdown.                             (* pool joined on leaving [with] *)
Arguments EvLen {T}.
Arguments EvPool {T} k workers.
Arguments EvIter {T}.
Arguments EvSubmit {T} item.
Arguments EvMonitor {T} h b desc colour total.
Arguments EvAdvance {T} h.
Arguments EvLog {T} item e.
Arguments EvShutdown {T}.

(** ** The state-and-exception monad *)

Module Py.

Definition M (T A : Type) : Type := list (event T) -> result A * list (event T).

Definition ret {T A} (a : A) : M T A := fun tr => (Ok a, tr).

Definition raise {T A} (e : exn) : M T A := fun tr => (Raise e, tr).

Definition bind {T A B} (m : M T A) (k : A -> M T B) : M T B :=
  fun tr =>
    match m tr with
    | (Ok a, tr') => k a tr'
    | (Raise e, tr') => (Raise e, tr')
    end.

Definition emit {T} (ev : event T) : M T unit := fun tr => (Ok tt, tr ++ [ev]).

Definition lift {T A} (r : result A) : M T A := fun tr => (r, tr).

(** [try: m except Exception as e: h e]. *)
Definition try_except {T A} (m : M T A) (h : exn -> M T A) : M T A :=
  fun tr =>
    match m tr with
    | (Ok a, tr') => (Ok a, tr')
    | (Raise e, tr') => h e tr'
    end.

(** [with pool: m]: the pool is shut down on the way out, whether [m]
    returned or raised, and the outcome of [m] is passed on. *)
Definition with_pool {T A} (m : M T A) : M T A :=
  fun tr =>
    match m tr with
    | (r, tr') => (r, tr' ++ [EvShutdown])
    end.

End Py.

Notation "'do' x <- m ;; k" := (Py.bind m (fun x => k))
  (at level 10, x name, m at level 99, k at level 200).
Notation "'run' m ;; k" := (Py.bind m (fun _ => k))
  (at level 10, m at level 99, k at level 200).

(** ** The progress bar ([tqdm], an external collaborator) *)

(** The first handle that no event of the trace mentions. *)
Fixpoint fresh_handle {T} (tr : list (event T)) : nat :=
  match tr with
  | [] => 0
  | EvMonitor h _ _ _ _ :: rest => Nat.max (S h) (fresh_handle rest)
  | EvAdvance h :: rest => Nat.max (S h) (fresh_handle rest)
  | _ :: rest => fresh_handle rest
  end.

(** The counter of bar [h]: how many times it was advanced. *)
Fixpoint counter {T} (h : nat) (tr : list (event T)) : nat :=
  match tr with
  | [] => 0
  | EvAdvance h' :: rest => (if Nat.eqb h h' then 1 else 0) + counter h rest
  | _ :: rest => counter h rest
  end.

(** A bar as the caller holds it: the handle of the object, what its
    iterator has still to yield, and whether an element was yielded that the
    bar has not counted yet. *)
Record monitor (A : Type) : Type := mkMonitor {
  mon_handle : nat;
  mon_rest : list A;
  mon_pending : bool
}.
Arguments mkMonitor {A} _ _ _.
Arguments mon_handle {A} _.
Arguments mon_rest {A} _.
Arguments mon_pending {A} _.

(** [tqdm(iterable, desc=..., colour=..., total=...)]: a new object. *)
Definition tqdm_new {T A} (b : backend) (it : list A)
    (desc colour : option string) (total : option nat) : Py.M T (monitor A) :=
  fun tr =>
    let h := fresh_handle tr in
    (Ok (mkMonitor h it false), tr ++ [EvMonitor h b desc colour total]).

(** [next] on the bar's iterator: the element yielded before is counted,
    then the next one is yielded, or the iteration ends. *)
Definition tqdm_next {T A} (w : monitor A) : Py.M T (option A * monitor A) :=
  run (if mon_pending w then Py.emit (EvAdvance (mon_handle w)) else Py.ret tt) ;;
  match mon_rest w with
  | [] => Py.ret (None, mkMonitor (mon_handle w) [] false)
  | x :: rest => Py.ret (Some x, mkMonitor (mon_handle w) rest true)
  end.

(** ** The module [progress_bar.main] *)

Section Main.

Context {T : Type}.

(** The host environment: whether an IPython shell is running, and how many
    workers each pool class takes when [max_workers] is [None]. *)
Variable ipython : bool.
Variable default_workers : ExecPool -> Z.

(** The scheduler: [as_completed futures] yields the futures in the order
    in which they finish. *)
Variable as_completed : list (Future T) -> list (Future T).

(** A call made in a worker process: the function, the item and the result
    are pickled across the process boundary.  [pickled_call func item] is
    what the future then holds: the outcome of the call when all of them
    can be pickled, the pickling error otherwise. *)
Variable pickled_call : (T -> result T) -> T -> result T.

Definition is_run_from_ipython : bool := ipython.

Definition get_corresponding_tqdm : backend :=
  if is_run_from_ipython then notebook_tqdm else standard_tqdm.

(** [setup_progress_monitor]: the bar of the chosen backend, built around
    the iterable. *)
Definition setup_progress_monitor {A} (it : list A)
    (desc colour : option string) (total : option nat) : Py.M T (monitor A) :=
  let tqdm_obj := get_corresponding_tqdm in
  tqdm_new tqdm_obj it desc colour total.

Definition pbar_desc (desc : string) : string :=
  if is_run_from_ipython then desc
  else (String (ascii_of_N 27) "[94m" ++ desc ++ String (ascii_of_N 27) "[0m")%string.

(** The names the module binds at its top level.  None of them is a
    dictionary, and [future_to_item] is not among them (nor is it a
    builtin); [run_parallel] never assigns it, so line 109 reads it as a
    global. *)
Definition module_globals : gmap string (pyobj T) :=
  list_to_map (map (fun n => (n, PyOther))
    [ "annotations"; "logging"; "Iterable"; "Iterator"; "TypeVar"; "Union";
      "Callable"; "cast"; "Path"; "PathLike"; "ThreadPoolExecutor";
      "ProcessPoolExecutor"; "as_completed"; "get_ipython"; "T"; "PathType";
      "logger"; "is_run_from_ipython"; "get_corresponding_tqdm";
      "setup_progress_monitor"; "pbar_desc"; "run_parallel" ]).

Definition load_global (name : string) : result (pyobj T) :=
  match module_globals !! name with
  | Some o => Ok o
  | None => Raise (NameError name)
  end.

(** [o[future]]. *)
Definition subscript (o : pyobj T) (fut : Future T) : result T :=
  match o with
  | PyDict d =>
      match List.find (fun kv => Nat.eqb (fst kv) (fut_id fut)) d with
      | Some kv => Ok (snd kv)
      | None => Raise KeyError
      end
  | PyOther => Raise (TypeError "object is not subscriptable")
  end.

(** [len(iterable)] inside [try ... except Exception: pass]. *)
Definition py_len (it : iterable T) : result nat :=
  match it with
  | Sized xs => Ok (length xs)
  | Unsized _ => Raise (TypeError "object has no len()")
  end.

Definition infer_total (it : iterable T) : Py.M T (option nat) :=
  Py.try_except
    (run Py.emit EvLen ;; do n <- Py.lift (py_len it) ;; Py.ret (Some n))
    (fun _ => Py.ret None).

(** The constructor of either pool class (in [concurrent.futures], outside
    the repository): [None] takes the host's default, a number that is not
    positive is refused with [ValueError]. *)
Definition new_pool (cls : ExecPool) (max_workers : option Z) : Py.M T ExecPool :=
  match max_workers with
  | None => run Py.emit (EvPool cls (default_workers cls)) ;; Py.ret cls
  | Some n =>
      if (n <=? 0)%Z
      then Py.raise (ValueError "max_workers must be greater than 0")
      else run Py.emit (EvPool cls n) ;; Py.ret cls
  end.

(** The call a worker of the pool performs for [pool.submit(func, item)]:
    a thread calls the function as it is, a process calls it across the
    process boundary. *)
Definition worker_call (cls : ExecPool) (func : T -> result T) : T -> result T :=
  match cls with
  | ThreadPoolExecutor => func
  | ProcessPoolExecutor => pickled_call func
  end.

(** [[pool.submit(func, item) for item in iterable]], where [func] is the
    call as the pool's workers perform it. *)
Fixpoint submit_from (func : T -> result T) (next_id : nat) (xs : list T)
    : Py.M T (list (Future T)) :=
  match xs with
  | [] => Py.ret []
  | item :: rest =>
      run Py.emit (EvSubmit item) ;;
      do futs <- submit_from func (S next_id) rest ;;
      Py.ret (mkFuture next_id item (func item) :: futs)
  end.

Definition submit_all (func : T -> result T) (it : iterable T)
    : Py.M T (list (Future T)) :=
  run Py.emit EvIter ;; submit_from func 0 (items_of it).

(** The body of the [for] loop, lines 109-113. *)
Definition loop_body (results : list T) (future : Future T) : Py.M T (list T) :=
  do d <- Py.lift (load_global "future_to_item") ;;
  do item <- Py.lift (subscript d future) ;;
  Py.try_except
    (do v <- Py.lift (fut_outcome future) ;; Py.ret (results ++ [v]))
    (fun e => run Py.emit (EvLog item e) ;; Py.ret results).

(** The [for] loop over the bar [h], lines 106-113: the bar yields a
    future, the body runs, and the bar counts the iteration when the loop
    resumes it for the next one. *)
Fixpoint for_monitor (h : nat) (futs : list (Future T)) (results : list T)
    : Py.M T (list T) :=
  match futs with
  | [] => Py.ret results
  | future :: rest =>
      do results' <- loop_body results future ;;
      run Py.emit (EvAdvance h) ;;
      for_monitor h rest results'
  end.

(** Line 88: [exec_type not in ('thread', 'process')]. *)
Definition recognized (exec_type : string) : bool :=
  String.eqb exec_type "thread" || String.eqb exec_type "process".

(** Lines 87-92. *)
Definition select_pool (executor : string) : result ExecPool :=
  let exec_type := lower executor in
  if negb (recognized exec_type)
  then Raise (ValueError "executor must be 'thread' or 'process'")
  else Ok (if String.eqb exec_type "thread"
           then ThreadPoolExecutor else ProcessPoolExecutor).

Definition run_parallel (func : T -> result T) (it : iterable T)
    (executor : string) (max_workers : option Z)
    (desc colour : option string) : Py.M T (list T) :=
  do cls <- Py.lift (select_pool executor) ;;
  do total <- infer_total it ;;
  do pool <- new_pool cls max_workers ;;
  Py.with_pool
    (do futures <- submit_all (worker_call pool func) it ;;
     do bar <- setup_progress_monitor (as_completed futures) desc colour total ;;
     for_monitor (mon_handle bar) (mon_rest bar) []).

End Main.

(** ** The module [src/src/progress_bar/main.py]

    The second copy of the module: the standalone wrapper, [progress_bar],
    with the same body as [setup_progress_monitor]. *)

Module Standalone.
Section Wrap.

Context {T : Type}.
Variable ipython : bool.

Definition is_run_from_ipython : bool := ipython.

Definition get_corresponding_tqdm : backend :=
  if is_run_from_ipython then notebook_tqdm else standard_tqdm.

Definition progress_bar {A} (it : list A)
    (desc colour : option string) (total : option nat) : Py.M T (monitor A) :=
  let tqdm_obj := get_corresponding_tqdm in
  tqdm_new tqdm_obj it desc colour total.

Definition pbar_desc (desc : string) : string :=
  if is_run_from_ipython then desc
  else (String (ascii_of_N 27) "[94m" ++ desc ++ String (ascii_of_N 27) "[0m")%string.

End Wrap.
End Standalone.

(** ** Two bars iterated in any interleaving *)

Definition yielded {A} (o : option A) : list A :=
  match o with Some x => [x] | None => [] end.

(** [interleave sched w1 w2] calls [next] on [w1] for every [true] of the
    schedule and on [w2] for every [false], and collects what each bar
    yields. *)
Fixpoint interleave {T A} (sched : list bool) (w1 w2 : monitor A)
    : Py.M T (list A * list A) :=
  match sched with
  | [] => Py.ret ([], [])
  | true :: s =>
      do r <- tqdm_next w1 ;;
      do p <- interleave s (snd r) w2 ;;
      Py.ret (yielded (fst r) ++ fst p, snd p)
  | false :: s =>
      do r <- tqdm_next w2 ;;
      do p <- interleave s w1 (snd r) ;;
      Py.ret (fst p, yielded (fst r) ++ snd p)
  end.

(** How often the schedule picks the first ([true]) or second bar. *)
Definition calls (b : bool) (sched : list bool) : nat :=
  length (List.filter (fun c => Bool.eqb b c) sched).

(** The number of iterations a bar counts over [k] calls of [next]. *)
Fixpoint advances {A} (pending : bool) (rest : list A) (k : nat) : nat :=
  match k with
  | 0 => 0
  | S k' =>
      (if pending then 1 else 0) +
      match rest with
      | [] => advances false rest k'
      | _ :: r => advances true r k'
      end
  end.

(** ** What a run leaves behind *)

(** The futures [submit_all] returns. *)
Fixpoint futures_from {T} (func : T -> result T) (next_id : nat) (xs : list T)
    : list (Future T) :=
  match xs with
  | [] => []
  | item :: rest => mkFuture next_id item (func item) :: futures_from func (S next_id) rest
  end.

(** The total the bar is given: the length when [len] succeeds. *)
Definition total_of {T} (it : iterable T) : option nat :=
  match it with
  | Sized xs => Some (length xs)
  | Unsized _ => None
  end.

(** The number of workers the pool is built with, when it is built. *)
Definition granted_workers (default_workers : ExecPool -> Z) (cls : ExecPool)
    (max_workers : option Z) : option Z :=
  match max_workers with
  | None => Some (default_workers cls)
  | Some n => if (n <=? 0)%Z then None else Some n
  end.

Definition is_advance {T} (ev : event T) : bool :=
  match ev with EvAdvance _ => true | _ => false end.

Definition is_log {T} (ev : event T) : bool :=
  match ev with EvLog _ _ => true | _ => false end.

Definition is_iter {T} (ev : event T) : bool :=
  match ev with EvIter => true | _ => false end.

Definition is_pool {T} (ev : event T) : bool :=
  match ev with EvPool _ _ => true | _ => false end.


Definition is_monitor {T} (ev : event T) : bool :=
  match ev with EvMonitor _ _ _ _ _ => true | _ => false end.

(** The number of events of one kind in a trace. *)
Definition occurrences {T} (kind : event T -> bool) (tr : list (event T)) : nat :=
  length (List.filter kind tr).

(** The failures the reporting channel holds: item and error, in order. *)
Fixpoint failures {T} (tr : list (event T)) : list (T * exn) :=
  match tr with
  | [] => []
  | EvLog item e :: rest => (item, e) :: failures rest
  | _ :: rest => failures rest
  end.

(** The totals the bars of a trace were built with. *)
Fixpoint totals {T} (tr : list (event T)) : list (option nat) :=
  match tr with
  | [] => []
  | EvMonitor _ _ _ _ total :: rest => total :: totals rest
  | _ :: rest => totals rest
  end.

(** A configuration [run_parallel] accepts: a tag that lowercases to one
    of the two names, and a worker count that is absent or positive. *)
Definition valid_configuration (executor : string) (max_workers : option Z) : Prop :=
  (lower executor = "thread" \/ lower executor = "process") /\
  match max_workers with
  | None => True
  | Some n => (0 < n)%Z
  end.

(** Two successive wraps of one static sequence by [wrap], then any
    interleaving of [next] calls on the two bars: the bars are distinct
    objects that start at zero, and what each yields and counts is fixed by
    the number of calls made on it alone. *)
Definition wraps_independently {T A : Type}
    (wrap : list A -> option string -> option string -> option nat
            -> Py.M T (monitor A)) : Prop :=
  forall (xs : list A) (desc colour : option string) (total : option nat)
         (tr0 : list (event T)) (sched : list bool),
  exists w1 w2 tr2 trf,
    (do w1 <- wrap xs desc colour total ;;
     do w2 <- wrap xs desc colour total ;;
     Py.ret (w1, w2)) tr0 = (Ok (w1, w2), tr2)
    /\ mon_handle w1 <> mon_handle w2
    /\ counter (mon_handle w1) tr2 = 0
    /\ counter (mon_handle w2) tr2 = 0
    /\ interleave sched w1 w2 tr2 =
         (Ok (take (calls true sched) xs, take (calls false sched) xs), trf)
    /\ counter (mon_handle w1) trf = Nat.min (calls true sched - 1) (length xs)
    /\ counter (mon_handle w2) trf = Nat.min (calls false sched - 1) (length xs).

(** ** The host's default pool sizes

    The constructors of [concurrent.futures] in CPython 3.8 and later,
    called with [max_workers=None] on a host whose CPU count
    ([os.cpu_count()]; [os.process_cpu_count()] from 3.13) is [cpu_count]. *)

(** [os.cpu_count() or 1]. *)
Definition cpus (cpu_count : option Z) : Z :=
  match cpu_count with
  | Some c => if (c =? 0)%Z then 1%Z else c
  | None => 1%Z
  end.

(** [ThreadPoolExecutor]: [min(32, (os.cpu_count() or 1) + 4)];
    [ProcessPoolExecutor]: [os.cpu_count() or 1]. *)
Definition host_default_workers (cpu_count : option Z) (cls : ExecPool) : Z :=
  match cls with
  | ThreadPoolExecutor => Z.min 32 (cpus cpu_count + 4)
  | ProcessPoolExecutor => cpus cpu_count
  end.

(** ** Sample user functions and schedules *)

(** A function, items and results that can all be pickled: the call in a
    worker process ends as the call itself; and a function that cannot be
    pickled (a lambda, a closure): the future holds the pickling error. *)
Definition picklable_call {T} (func : T -> result T) : T -> result T := func.

Definition unpicklable_call {T} (func : T -> result T) : T -> result T :=
  fun _ => Raise (PicklingError "Can't pickle function").

Definition identity (x : Z) : result Z := Ok x.

Definition fails_on_negative (x : Z) : result Z :=
  if (x <? 0)%Z then Raise (ValueError "negative input") else Ok x.

(** Tasks finishing in the order they were submitted, and in the reverse
    order. *)
Definition submission_order {T} (futs : list (Future T)) : list (Future T) := futs.

Definition reverse_order {T} (futs : list (Future T)) : list (Future T) := rev futs.

(** ** Further observations on a run *)

Definition is_shutdown {T} (ev : event T) : bool :=
  match ev with EvShutdown => true | _ => false end.

(** The items handed to [pool.submit], in the order of the calls. *)
Fixpoint submitted {T} (tr : list (event T)) : list T :=
  match tr with
  | [] => []
  | EvSubmit item :: rest => item :: submitted rest
  | _ :: rest => submitted rest
  end.

(** [k] calls of [next] on one bar: what they yield, and the bar after. *)
Fixpoint next_n {T A} (k : nat) (w : monitor A) : Py.M T (list A * monitor A) :=
  match k with
  | 0 => Py.ret ([], w)
  | S k' =>
      do r <- tqdm_next w ;;
      do p <- next_n k' (snd r) ;;
      Py.ret (yielded (fst r) ++ fst p, snd p)
  end.

(** Iterating a fresh wrap of a list to its end, with [k] calls of [next]
    where [k] exceeds the length: the calls yield the list itself, the bar
    has counted every element and no other bar has moved, and the bar is
    exhausted (one more call yields nothing and changes nothing). *)
Definition wrap_is_transparent {T A : Type}
    (wrap : list A -> option string -> option string -> option nat
            -> Py.M T (monitor A)) : Prop :=
  forall (xs : list A) (desc colour : option string) (total : option nat)
         (tr0 : list (event T)) (k : nat),
  length xs < k ->
  exists w tr1 wf trf,
    wrap xs desc colour total tr0 = (Ok w, tr1)
    /\ next_n k w tr1 = (Ok (xs, wf), trf)
    /\ counter (mon_handle w) trf = length xs
    /\ (forall h, h <> mon_handle w -> counter h trf = counter h tr0)
    /\ tqdm_next wf trf = (Ok (None, wf), trf).

(** ** Lemmas on traces *)

Section TraceLemmas.

Context {T : Type}.
Implicit Types tr : list (event T).

Lemma occurrences_app kind tr1 tr2 :
  occurrences kind (tr1 ++ tr2) = occurrences kind tr1 + occurrences kind tr2.
Proof. unfold occurrences. now rewrite List.filter_app, length_app. Qed.

Lemma occurrences_submits kind (xs : list T) :
  kind = is_advance \/ kind = is_log \/ kind = is_iter \/ kind = is_pool
    \/ kind = is_monitor ->
  occurrences kind (map EvSubmit xs) = 0.
Proof.
  intros Hk. induction xs as [|x xs IH]; [reflexivity|].
  unfold occurrences in *. simpl.
  destruct Hk as [->|[->|[->|[->| ->]]]]; simpl; exact IH.
Qed.

Lemma failures_app tr1 tr2 : failures (tr1 ++ tr2) = failures tr1 ++ failures tr2.
Proof.
  induction tr1 as [|ev tr1 IH]; [reflexivity|].
  destruct ev; simpl; rewrite IH; reflexivity.
Qed.

Lemma failures_submits (xs : list T) : failures (map EvSubmit xs) = [].
Proof. induction xs; simpl; auto. Qed.

Lemma totals_app tr1 tr2 : totals (tr1 ++ tr2) = totals tr1 ++ totals tr2.
Proof.
  induction tr1 as [|ev tr1 IH]; [reflexivity|].
  destruct ev; simpl; rewrite IH; reflexivity.
Qed.

Lemma totals_submits (xs : list T) : totals (map EvSubmit xs) = [].
Proof. induction xs; simpl; auto. Qed.

Lemma counter_app h tr1 tr2 : counter h (tr1 ++ tr2) = counter h tr1 + counter h tr2.
Proof.
  induction tr1 as [|ev tr1 IH]; [reflexivity|].
  destruct ev; simpl; rewrite IH; lia.
Qed.

Lemma counter_submits h (xs : list T) : counter h (map EvSubmit xs) = 0.
Proof. induction xs; simpl; auto. Qed.

(** A handle that is fresh for a trace was never advanced in it. *)
Lemma counter_fresh h tr : fresh_handle tr <= h -> counter h tr = 0.
Proof.
  induction tr as [|ev tr IH]; [reflexivity|].
  destruct ev; simpl; intros Hh; try (apply IH; lia).
  destruct (Nat.eqb_spec h h0); [lia|]. apply IH. lia.
Qed.

Lemma fresh_handle_app tr1 tr2 :
  fresh_handle (tr1 ++ tr2) = Nat.max (fresh_handle tr1) (fresh_handle tr2).
Proof.
  induction tr1 as [|ev tr1 IH]; [reflexivity|].
  destruct ev; simpl; rewrite IH; lia.
Qed.

Lemma fresh_handle_submits (xs : list T) : fresh_handle (map EvSubmit xs) = 0.
Proof. induction xs; simpl; auto. Qed.

End TraceLemmas.

(** ** Lemmas on [run_parallel] *)

Section RunLemmas.

Context {T : Type}.
Variable ipython : bool.
Variable default_workers : ExecPool -> Z.
Variable as_completed : list (Future T) -> list (Future T).
Variable pickled_call : (T -> result T) -> T -> result T.

(** Line 109 reads a name that nothing binds. *)
Lemma load_global_future_to_item :
  @load_global T "future_to_item" = Raise (NameError "future_to_item").
Proof. reflexivity. Qed.

Lemma loop_body_raises (results : list T) (future : Future T) tr :
  loop_body results future tr = (Raise (NameError "future_to_item"), tr).
Proof.
  unfold loop_body, Py.bind, Py.lift. rewrite load_global_future_to_item.
  reflexivity.
Qed.

(** The loop ends at once: with nothing to iterate it returns the results,
    otherwise its first iteration raises before the bar counts it. *)
Lemma for_monitor_outcome h (futs : list (Future T)) results tr :
  for_monitor h futs results tr =
    (match futs with
     | [] => Ok results
     | _ :: _ => Raise (NameError "future_to_item")
     end, tr).
Proof.
  destruct futs as [|future rest]; [reflexivity|].
  simpl. unfold Py.bind. rewrite loop_body_raises. reflexivity.
Qed.

Lemma submit_from_spec (func : T -> result T) k xs tr :
  submit_from func k xs tr = (Ok (futures_from func k xs), tr ++ map EvSubmit xs).
Proof.
  revert k tr. induction xs as [|x xs IH]; intros k tr; simpl.
  - unfold Py.ret. now rewrite app_nil_r.
  - unfold Py.bind, Py.emit, Py.ret. rewrite IH.
    now rewrite <- app_assoc.
Qed.

Lemma infer_total_spec (it : iterable T) tr :
  infer_total it tr = (Ok (total_of it), tr ++ [EvLen]).
Proof. destruct it; reflexivity. Qed.

(** An unrecognized tag: nothing happens but the error. *)
Lemma run_parallel_bad_executor func it executor max_workers desc colour e tr :
  select_pool executor = Raise e ->
  run_parallel ipython default_workers as_completed pickled_call
    func it executor max_workers desc colour tr = (Raise e, tr).
Proof.
  intros He. unfold run_parallel, Py.bind, Py.lift. rewrite He. reflexivity.
Qed.

(** A refused worker count: the length was asked for, nothing else. *)
Lemma run_parallel_bad_workers func it executor n desc colour cls tr :
  select_pool executor = Ok cls ->
  (n <= 0)%Z ->
  run_parallel ipython default_workers as_completed pickled_call
    func it executor (Some n) desc colour tr =
  (Raise (ValueError "max_workers must be greater than 0"), tr ++ [EvLen]).
Proof.
  intros He Hn. unfold run_parallel, Py.bind, Py.lift. rewrite He.
  rewrite infer_total_spec. unfold new_pool.
  destruct (Z.leb_spec n 0); [reflexivity | lia].
Qed.

(** A valid configuration: the whole run. *)
Lemma run_parallel_valid func it executor max_workers desc colour cls w tr :
  select_pool executor = Ok cls ->
  granted_workers default_workers cls max_workers = Some w ->
  run_parallel ipython default_workers as_completed pickled_call
    func it executor max_workers desc colour tr =
  (match as_completed
        (futures_from (worker_call pickled_call cls func) 0 (items_of it)) with
   | [] => Ok []
   | _ :: _ => Raise (NameError "future_to_item")
   end,
   tr ++ [EvLen; EvPool cls w; EvIter] ++ map EvSubmit (items_of it)
      ++ [EvMonitor (fresh_handle tr) (get_corresponding_tqdm ipython)
            desc colour (total_of it); EvShutdown]).
Proof.
  intros He Hw. unfold run_parallel, Py.bind, Py.lift. rewrite He.
  rewrite infer_total_spec.
  assert (Hp : forall tr' : list (event T),
    new_pool default_workers cls max_workers tr' = (Ok cls, tr' ++ [EvPool cls w])).
  { intros tr'. unfold new_pool, granted_workers in *.
    destruct max_workers as [n|].
    - destruct (n <=? 0)%Z; [discriminate|]. injection Hw as <-. reflexivity.
    - injection Hw as <-. reflexivity. }
  rewrite Hp. unfold Py.with_pool, submit_all, Py.bind, Py.emit.
  rewrite submit_from_spec. unfold setup_progress_monitor, tqdm_new. simpl.
  rewrite for_monitor_outcome.
  rewrite !fresh_handle_app, fresh_handle_submits. simpl.
  rewrite !Nat.max_0_r.
  repeat rewrite <- app_assoc. simpl. reflexivity.
Qed.

End RunLemmas.

(** ** Lemmas on the bars *)

Section BarLemmas.

Context {T A : Type}.

Lemma advances_done k : advances false (@nil A) k = 0.
Proof. induction k; simpl; auto. Qed.

Lemma advances_pending (xs : list A) k :
  advances true xs k = Nat.min k (S (length xs)).
Proof.
  revert xs. induction k as [|k IH]; intros xs; [reflexivity|].
  simpl advances. destruct xs as [|x xs].
  - rewrite advances_done. simpl. destruct k; reflexivity.
  - rewrite IH. simpl. reflexivity.
Qed.

Lemma advances_fresh (xs : list A) k :
  advances false xs k = Nat.min (k - 1) (length xs).
Proof.
  destruct k as [|k]; [reflexivity|].
  simpl advances. destruct xs as [|x xs].
  - rewrite advances_done. simpl. lia.
  - rewrite advances_pending. simpl. rewrite Nat.sub_0_r. reflexivity.
Qed.

(** One call of [next]: it never raises, keeps the handle, yields the head
    of what is left, and advances nothing but its own bar. *)
Lemma tqdm_next_spec (w : monitor A) (tr : list (event T)) :
  exists w' trn,
    tqdm_next w tr = (Ok (head (mon_rest w), w'), trn)
    /\ mon_handle w' = mon_handle w
    /\ mon_rest w' = tail (mon_rest w)
    /\ mon_pending w' = match mon_rest w with [] => false | _ :: _ => true end
    /\ counter (mon_handle w) trn =
         counter (mon_handle w) tr + (if mon_pending w then 1 else 0)
    /\ forall h, h <> mon_handle w -> counter h trn = counter h tr.
Proof.
  destruct w as [h rest pending]. unfold tqdm_next, Py.bind. simpl.
  destruct pending, rest as [|x rest]; simpl;
    eexists _, _; (split; [reflexivity|]); simpl;
    repeat split; auto; intros;
    rewrite ?counter_app; simpl; rewrite ?Nat.eqb_refl; try lia.
  all: destruct (Nat.eqb_spec h0 h); [contradiction | lia].
Qed.

Lemma calls_cons b c sched :
  calls b (c :: sched) = (if Bool.eqb b c then 1 else 0) + calls b sched.
Proof. unfold calls. simpl. destruct (Bool.eqb b c); reflexivity. Qed.

Lemma yielded_take (rest : list A) k :
  yielded (head rest) ++ take k (tail rest) = take (S k) rest.
Proof. destruct rest; simpl; [now destruct k | reflexivity]. Qed.

Lemma advances_step (w : monitor A) k :
  (if mon_pending w then 1 else 0)
  + advances (match mon_rest w with [] => false | _ :: _ => true end)
      (tail (mon_rest w)) k
  = advances (mon_pending w) (mon_rest w) (S k).
Proof. destruct w as [h rest pending]. simpl. destruct rest; reflexivity. Qed.

(** Any interleaving of two bars with distinct handles. *)
Lemma interleave_spec (sched : list bool) :
  forall (w1 w2 : monitor A) (tr : list (event T)),
  mon_handle w1 <> mon_handle w2 ->
  exists trf,
    interleave sched w1 w2 tr =
      (Ok (take (calls true sched) (mon_rest w1),
           take (calls false sched) (mon_rest w2)), trf)
    /\ counter (mon_handle w1) trf =
         counter (mon_handle w1) tr
         + advances (mon_pending w1) (mon_rest w1) (calls true sched)
    /\ counter (mon_handle w2) trf =
         counter (mon_handle w2) tr
         + advances (mon_pending w2) (mon_rest w2) (calls false sched).
Proof.
  induction sched as [|c sched IH]; intros w1 w2 tr Hne.
  - exists tr. simpl. repeat split; lia.
  - rewrite !calls_cons.
    destruct c; cbn [Bool.eqb Nat.add interleave]; unfold Py.bind.
    + destruct (tqdm_next_spec w1 tr) as (w' & trn & -> & Hh & Hr & Hp & Hc & Ho).
      cbn beta iota zeta delta [fst snd].
      destruct (IH w' w2 trn) as (trf & -> & H1 & H2); [congruence|].
      exists trf. unfold Py.ret. cbn beta iota zeta delta [fst snd].
      rewrite Hh, Hr, Hp in *. rewrite yielded_take.
      split; [reflexivity|]. split.
      * rewrite H1, Hc, <- advances_step. lia.
      * rewrite H2, Ho by congruence. reflexivity.
    + destruct (tqdm_next_spec w2 tr) as (w' & trn & -> & Hh & Hr & Hp & Hc & Ho).
      cbn beta iota zeta delta [fst snd].
      destruct (IH w1 w' trn) as (trf & -> & H1 & H2); [congruence|].
      exists trf. unfold Py.ret. cbn beta iota zeta delta [fst snd].
      rewrite Hh, Hr, Hp in *. rewrite yielded_take.
      split; [reflexivity|]. split.
      * rewrite H1, Ho by congruence. reflexivity.
      * rewrite H2, Hc, <- advances_step. lia.
Qed.

(** Building two bars in a row. *)
Lemma tqdm_new_twice (b : backend) :
  wraps_independently (T:=T) (A:=A) (tqdm_new b).
Proof.
  intros xs desc colour total tr0 sched.
  set (h1 := fresh_handle tr0).
  set (tr1 := tr0 ++ [EvMonitor h1 b desc colour total]).
  set (h2 := fresh_handle tr1).
  set (tr2 := tr1 ++ [EvMonitor h2 b desc colour total]).
  assert (Hh2 : h2 = S h1).
  { unfold h2, tr1. rewrite fresh_handle_app. simpl. fold h1. lia. }
  assert (H1 : counter h1 tr2 = 0).
  { unfold tr2, tr1. rewrite !counter_app. simpl.
    rewrite (counter_fresh h1 tr0); [reflexivity | unfold h1; lia]. }
  assert (H2 : counter h2 tr2 = 0).
  { unfold tr2, tr1. rewrite !counter_app. simpl.
    rewrite (counter_fresh h2 tr0); [reflexivity | unfold h1 in Hh2; lia]. }
  destruct (interleave_spec sched (mkMonitor h1 xs false) (mkMonitor h2 xs false) tr2)
    as (trf & Hi & Hc1 & Hc2); [simpl; lia|].
  simpl in Hi, Hc1, Hc2.
  exists (mkMonitor h1 xs false), (mkMonitor h2 xs false), tr2, trf.
  simpl. repeat split; auto; try lia.
  - rewrite Hc1, H1, advances_fresh. reflexivity.
  - rewrite Hc2, H2, advances_fresh. reflexivity.
Qed.

End BarLemmas.

(** One item submitted to either pool with a function that cannot be
    pickled: the thread's future holds the result, the process's future the
    pickling error. *)
Example unpicklable_function_submitted :
  submit_all (worker_call unpicklable_call ThreadPoolExecutor identity)
    (Sized [5%Z]) [] =
    (Ok [mkFuture 0 5%Z (Ok 5%Z)], [EvIter; EvSubmit 5%Z])
  /\
  submit_all (worker_call unpicklable_call ProcessPoolExecutor identity)
    (Sized [5%Z]) [] =
    (Ok [mkFuture 0 5%Z (Raise (PicklingError "Can't pickle function"))],
     [EvIter; EvSubmit 5%Z]).
Proof. split; reflexivity. Qed.

(** Two bars over one list, iterated in turns: each yields both elements,
    and each is advanced twice under its own handle. *)
Example two_bars_in_turns :
  (do w1 <- Standalone.progress_bar false ["a"; "b"] None None None ;;
   do w2 <- Standalone.progress_bar false ["a"; "b"] None None None ;;
   interleave [true; false; true; false; true; false] w1 w2) (@nil (event unit)) =
  (Ok (["a"; "b"], ["a"; "b"]),
   [EvMonitor 0 standard_tqdm None None None;
    EvMonitor 1 standard_tqdm None None None;
    EvAdvance 0; EvAdvance 1; EvAdvance 0; EvAdvance 1]).
Proof. reflexivity. Qed.

(** ** Configurations *)

Section ConfigLemmas.

Lemma select_pool_thread executor :
  lower executor = "thread" -> select_pool executor = Ok ThreadPoolExecutor.
Proof. intros H. unfold select_pool. rewrite H. reflexivity. Qed.

Lemma select_pool_process executor :
  lower executor = "process" -> select_pool executor = Ok ProcessPoolExecutor.
Proof. intros H. unfold select_pool. rewrite H. reflexivity. Qed.

Lemma select_pool_other executor :
  lower executor <> "thread" -> lower executor <> "process" ->
  select_pool executor = Raise (ValueError "executor must be 'thread' or 'process'").
Proof.
  intros Ht Hp. unfold select_pool, recognized.
  destruct (String.eqb_spec (lower executor) "thread"); [contradiction|].
  destruct (String.eqb_spec (lower executor) "process"); [contradiction|].
  reflexivity.
Qed.

(** Whatever the tag, the selector answers: a pool class or [ValueError]. *)
Lemma select_pool_cases executor :
  (exists cls, select_pool executor = Ok cls) \/
  select_pool executor = Raise (ValueError "executor must be 'thread' or 'process'").
Proof.
  unfold select_pool. destruct (recognized (lower executor)); simpl; eauto.
Qed.

Lemma valid_configuration_granted default_workers executor max_workers :
  valid_configuration executor max_workers ->
  exists cls w,
    select_pool executor = Ok cls /\
    granted_workers default_workers cls max_workers = Some w.
Proof.
  intros [Hex Hw].
  assert (Hg : forall cls, exists w,
             granted_workers default_workers cls max_workers = Some w).
  { intros cls. unfold granted_workers. destruct max_workers as [n|]; eauto.
    destruct (Z.leb_spec n 0); [lia | eauto]. }
  destruct Hex as [H|H].
  - destruct (Hg ThreadPoolExecutor) as [w Hgw].
    exists ThreadPoolExecutor, w. auto using select_pool_thread.
  - destruct (Hg ProcessPoolExecutor) as [w Hgw].
    exists ProcessPoolExecutor, w. auto using select_pool_process.
Qed.

End ConfigLemmas.

(** ** The claims *)

Section Claims.

Context {T : Type}.
Variable ipython : bool.
Variable default_workers : ExecPool -> Z.
Variable as_completed : list (Future T) -> list (Future T).
Variable pickled_call : (T -> result T) -> T -> result T.

(** The scheduler reports every future once: completion order is a
    permutation of the futures submitted. *)
Hypothesis as_completed_perm :
  forall futs, Permutation (as_completed futs) futs.

(** C4, as amended.  For every strategy tag whose lowercase form is neither
    ['thread'] nor ['process'], [run_parallel] raises [ValueError] (the
    invalid-configuration error) and leaves the trace as it found it: no
    pool is built, no task submitted, no bar built or advanced. *)
Theorem unrecognized_tag_rejected
    (func : T -> result T) (it : iterable T) (executor : string)
    (max_workers : option Z) (desc colour : option string)
    (tr : list (event T)) :
  lower executor <> "thread" ->
  lower executor <> "process" ->
  run_parallel ipython default_workers as_completed pickled_call
        func it executor max_workers desc colour tr =
    (Raise (ValueError "executor must be 'thread' or 'process'"), tr).
Proof.
  intros Ht Hp. apply run_parallel_bad_executor.
  now apply select_pool_other.
Qed.

(** A worker count that is zero or negative: [run_parallel] raises
    [ValueError] whatever the other arguments are, having built no pool,
    submitted nothing and advanced no bar. *)
Lemma nonpositive_max_workers_rejected
    (func : T -> result T) (it : iterable T) (executor : string) (n : Z)
    (desc colour : option string) (tr : list (event T)) :
  (n <= 0)%Z ->
  (exists msg,
     fst (run_parallel ipython default_workers as_completed pickled_call
           func it executor (Some n) desc colour tr)
       = Raise (ValueError msg)) /\
  (let tr' := snd (run_parallel ipython default_workers as_completed pickled_call
        func it executor (Some n) desc colour tr) in
   tr' = tr \/ tr' = tr ++ [EvLen]).
Proof.
  intros Hn. destruct (select_pool_cases executor) as [[cls Hc]|He].
  - rewrite (run_parallel_bad_workers _ _ _ _ func it executor n desc colour cls tr Hc Hn).
    simpl. split; [eauto | auto].
  - rewrite (run_parallel_bad_executor _ _ _ _ func it executor (Some n)
        desc colour _ tr He).
    simpl. split; [eauto | auto].
Qed.

(** With [max_workers = None] and an accepted tag, the pool is built with
    the default of its class. *)
Lemma none_max_workers_pool_size
    (func : T -> result T) (it : iterable T) (executor : string) (cls : ExecPool)
    (desc colour : option string) (tr : list (event T)) :
  select_pool executor = Ok cls ->
  In (EvPool cls (default_workers cls))
     (snd (run_parallel ipython default_workers as_completed pickled_call
             func it executor None desc colour tr)).
Proof.
  intros Hc.
  rewrite (run_parallel_valid _ _ _ _ func it executor None desc colour cls
             (default_workers cls) tr Hc eq_refl).
  simpl. apply in_or_app. right. simpl. auto.
Qed.

(** C7.  For every input iterable and every valid configuration, the bar is
    built with the length of the input as its total when the input has a
    length, with an unknown total ([None]) when it has none, and the input
    is iterated exactly once; under any configuration at all it is iterated
    at most once. *)
Theorem total_reported_and_single_pass
    (func : T -> result T) (it : iterable T) (executor : string)
    (max_workers : option Z) (desc colour : option string) :
  let tr := snd (run_parallel ipython default_workers as_completed pickled_call
        func it executor max_workers desc colour []) in
  occurrences is_iter tr <= 1 /\
  (valid_configuration executor max_workers ->
   totals tr = [match it with
                | Sized xs => Some (length xs)
                | Unsized _ => None
                end]
   /\ occurrences is_iter tr = 1).
Proof.
  assert (Hvalid : forall cls w,
    select_pool executor = Ok cls ->
    granted_workers default_workers cls max_workers = Some w ->
    let tr := snd (run_parallel ipython default_workers as_completed pickled_call
          func it executor max_workers desc colour []) in
    totals tr = [total_of it] /\ occurrences is_iter tr = 1).
  { intros cls w Hc Hw.
    rewrite (run_parallel_valid _ _ _ _ func it executor max_workers desc colour
               cls w [] Hc Hw).
    cbn [snd app]. split.
    - simpl. rewrite totals_app, totals_submits. reflexivity.
    - change (occurrences is_iter (EvLen :: EvPool cls w :: EvIter :: ?l))
        with (1 + occurrences is_iter l).
      rewrite occurrences_app, occurrences_submits by auto. reflexivity. }
  cbv zeta. split.
  - destruct (select_pool_cases executor) as [[cls Hc]|He].
    + destruct (granted_workers default_workers cls max_workers) as [w|] eqn:Hw.
      * destruct (Hvalid cls w Hc Hw) as [_ ->]. lia.
      * unfold granted_workers in Hw. destruct max_workers as [n|]; [|discriminate].
        destruct (Z.leb_spec n 0); [|discriminate].
        rewrite (run_parallel_bad_workers _ _ _ _ func it executor n desc colour cls [] Hc)
          by assumption.
        simpl. unfold occurrences. simpl. lia.
    + rewrite (run_parallel_bad_executor _ _ _ _ func it executor max_workers
          desc colour _ [] He).
      simpl. unfold occurrences. simpl. lia.
  - intros Hv.
    destruct (valid_configuration_granted default_workers _ _ Hv) as (cls & w & Hc & Hw).
    destruct (Hvalid cls w Hc Hw) as [Ht Hi]. split; [|exact Hi].
    rewrite Ht. destruct it; reflexivity.
Qed.

(** C9.  Tag matching is case-insensitive: every tag whose lowercase form
    is ['thread'] (resp. ['process']) is accepted and selects the thread
    (resp. process) pool, which [run_parallel] then builds with the workers
    it was given. *)
Theorem tag_matching_case_insensitive
    (func : T -> result T) (it : iterable T) (executor : string) (n : Z)
    (desc colour : option string) (tr : list (event T)) :
  lower executor = "thread" \/ lower executor = "process" ->
  (0 < n)%Z ->
  let cls := if String.eqb (lower executor) "thread"
             then ThreadPoolExecutor else ProcessPoolExecutor in
  select_pool executor = Ok cls /\
  In (EvPool cls n) (snd (run_parallel ipython default_workers as_completed pickled_call
        func it executor (Some n) desc colour tr)) /\
  forall msg,
    fst (run_parallel ipython default_workers as_completed pickled_call
          func it executor (Some n) desc colour tr)
      <> Raise (ValueError msg).
Proof.
  intros Hex Hn cls.
  assert (Hc : select_pool executor = Ok cls).
  { subst cls. destruct Hex as [H|H]; rewrite H; simpl.
    - now apply select_pool_thread.
    - now apply select_pool_process. }
  assert (Hw : granted_workers default_workers cls (Some n) = Some n).
  { unfold granted_workers. destruct (Z.leb_spec n 0); [lia | reflexivity]. }
  rewrite (run_parallel_valid _ _ _ _ func it executor (Some n) desc colour cls n tr Hc Hw).
  split; [exact Hc|]. split.
  - cbn [snd]. apply in_or_app. right. simpl. auto.
  - intros msg. cbn [fst]. destruct (as_completed _); discriminate.
Qed.

(** C10.  For the empty input, under every valid configuration and for
    every user function, [run_parallel] returns the empty list, advances no
    bar and records no failure. *)
Theorem empty_input_returns_empty
    (func : T -> result T) (it : iterable T) (executor : string)
    (max_workers : option Z) (desc colour : option string) :
  items_of it = [] ->
  valid_configuration executor max_workers ->
  let r := run_parallel ipython default_workers as_completed pickled_call
        func it executor max_workers desc colour [] in
  fst r = Ok [] /\
  occurrences is_advance (snd r) = 0 /\
  failures (snd r) = [].
Proof.
  intros Hempty Hv.
  destruct (valid_configuration_granted default_workers _ _ Hv) as (cls & w & Hc & Hw).
  cbv zeta.
  rewrite (run_parallel_valid _ _ _ _ func it executor max_workers desc colour
             cls w [] Hc Hw).
  rewrite Hempty. simpl.
  pose proof (as_completed_perm []) as Hperm.
  apply Permutation_sym, Permutation_nil in Hperm. rewrite Hperm.
  repeat split; reflexivity.
Qed.

End Claims.

(** The defect in general: on a non-empty input, under a valid
    configuration, the first iteration of the loop raises [NameError]; the
    pool is shut down, no bar was advanced and no failure was recorded. *)
Lemma run_parallel_nonempty_raises {T : Type}
    (ipython : bool) (default_workers : ExecPool -> Z)
    (as_completed : list (Future T) -> list (Future T))
    (pickled_call : (T -> result T) -> T -> result T)
    (func : T -> result T) (it : iterable T) (executor : string)
    (max_workers : option Z) (desc colour : option string) :
  (forall futs, Permutation (as_completed futs) futs) ->
  items_of it <> [] ->
  valid_configuration executor max_workers ->
  let r := run_parallel ipython default_workers as_completed pickled_call
             func it executor max_workers desc colour [] in
  fst r = Raise (NameError "future_to_item") /\
  occurrences is_advance (snd r) = 0 /\
  failures (snd r) = [].
Proof.
  intros Hperm Hne Hv.
  destruct (valid_configuration_granted default_workers _ _ Hv) as (cls & w & Hc & Hw).
  cbv zeta.
  rewrite (run_parallel_valid _ _ _ _ func it executor max_workers desc colour
             cls w [] Hc Hw).
  cbn [fst snd]. split; [|split].
  - destruct (items_of it) as [|x xs] eqn:Hx; [contradiction|].
    set (futs := futures_from (worker_call pickled_call cls func) 0 (x :: xs)).
    destruct (as_completed futs) eqn:Hs; [|reflexivity].
    specialize (Hperm futs). rewrite Hs in Hperm.
    apply Permutation_nil in Hperm. discriminate.
  - rewrite !occurrences_app, occurrences_submits by auto. reflexivity.
  - rewrite !failures_app, failures_submits. reflexivity.
Qed.

(** C1 (not met by the code).  Five items, the identity function, the
    default configuration: the claim promises a list of the 5 outputs; the
    run raises [NameError] from the first iteration of its loop, after all
    5 tasks were submitted, and returns nothing. *)
Theorem identity_on_five_items_raises (ipython : bool) (default_workers : ExecPool -> Z) :
  run_parallel ipython default_workers submission_order picklable_call
    identity (Sized [1; 2; 3; 4; 5]%Z) "thread" None None None [] =
  (Raise (NameError "future_to_item"),
   [EvLen; EvPool ThreadPoolExecutor (default_workers ThreadPoolExecutor); EvIter;
    EvSubmit 1%Z; EvSubmit 2%Z; EvSubmit 3%Z; EvSubmit 4%Z; EvSubmit 5%Z;
    EvMonitor 0 (get_corresponding_tqdm ipython) None None (Some 5);
    EvShutdown]).
Proof.
  reflexivity.
Qed.

(** C2 (not met by the code).  Items [1, 2, -1, 4, -1] and a function that
    raises on negative input: the claim promises 3 results and 2 recorded
    failures; the run is aborted by [NameError] and the failure channel
    stays empty. *)
Theorem failing_items_run_aborted (ipython : bool) (default_workers : ExecPool -> Z) :
  let r := run_parallel ipython default_workers submission_order picklable_call
             fails_on_negative (Sized [1; 2; -1; 4; -1]%Z)
             "thread" None None None [] in
  fst r = Raise (NameError "future_to_item") /\ failures (snd r) = [].
Proof.
  cbv zeta.
  split; reflexivity.
Qed.

(** C3 (not met by the code).  Two items, one succeeding and one failing:
    the claim promises 2 advance calls; the bar the run builds is never
    advanced. *)
Theorem two_items_no_advance (ipython : bool) (default_workers : ExecPool -> Z) :
  let r := run_parallel ipython default_workers submission_order picklable_call
             fails_on_negative (Sized [1; -1]%Z) "thread" (Some 2%Z) None None [] in
  fst r = Raise (NameError "future_to_item") /\
  occurrences is_advance (snd r) = 0 /\
  counter 0 (snd r) = 0 /\
  length (items_of (Sized [1; -1]%Z)) = 2.
Proof.
  cbv zeta.
  repeat split; reflexivity.
Qed.

(** The thread pool's default is the host's CPU count on no host but one
    with exactly 32 CPUs; the process pool's default is the CPU count. *)
Lemma thread_default_differs (c : Z) :
  (1 <= c)%Z ->
  (host_default_workers (Some c) ThreadPoolExecutor = c <-> c = 32%Z) /\
  host_default_workers (Some c) ProcessPoolExecutor = c.
Proof.
  intros Hc. unfold host_default_workers, cpus.
  destruct (Z.eqb_spec c 0); [lia|]. split; [lia | reflexivity].
Qed.

(** C5 (not met by the code).  On a host with 4 CPUs, a run with the
    default tag and [max_workers = None] builds its pool with 8 workers:
    [None] is handed on to the thread pool, whose own default is
    min(32, CPUs + 4), where the claim, like the docstring of
    [run_parallel], promises the host's parallelism, 4. *)
Theorem thread_pool_default_exceeds_cpu_count (ipython : bool) :
  cpus (Some 4%Z) = 4%Z /\
  run_parallel ipython (host_default_workers (Some 4%Z)) submission_order
    picklable_call identity (Sized []) "thread" None None None [] =
  (Ok [],
   [EvLen; EvPool ThreadPoolExecutor 8%Z; EvIter;
    EvMonitor 0 (get_corresponding_tqdm ipython) None None (Some 0);
    EvShutdown]).
Proof. split; reflexivity. Qed.

(** C6 (not met by the code).  Items [1, 2] whose tasks finish in the
    reverse order: the claim promises the list [2, 1]; the run returns no
    list, it raises [NameError]. *)
Theorem reverse_completion_returns_nothing
    (ipython : bool) (default_workers : ExecPool -> Z) :
  reverse_order (futures_from identity 0 [1; 2]%Z)
    = [mkFuture 1 2%Z (Ok 2%Z); mkFuture 0 1%Z (Ok 1%Z)] /\
  fst (run_parallel ipython default_workers reverse_order picklable_call
         identity (Sized [1; 2]%Z) "thread" None None None [])
    = Raise (NameError "future_to_item").
Proof.
  split; [reflexivity|].
  reflexivity.
Qed.

(** C8.  Wrapping one static sequence twice, with [setup_progress_monitor]
    or with the standalone [progress_bar], gives two distinct bars, each
    starting at zero whatever bars were used before; under every
    interleaving of their iterations each yields the elements of the
    sequence in order (the same elements for both) and counts its own
    iterations only. *)
Theorem wrapping_twice_is_independent {T A : Type} (ipython : bool) :
  wraps_independently (T:=T) (A:=A) (setup_progress_monitor ipython) /\
  wraps_independently (T:=T) (A:=A) (Standalone.progress_bar ipython).
Proof.
  split.
  - unfold setup_progress_monitor. apply tqdm_new_twice.
  - unfold Standalone.progress_bar. apply tqdm_new_twice.
Qed.

(** C4 as stated fails: the tag ['Thread'] is neither of the two names, yet
    it is accepted; on the empty input the run builds a thread pool and
    returns the empty list. *)
Lemma capitalized_tag_accepted :
  "Thread" <> "thread" /\ "Thread" <> "process" /\
  run_parallel false (host_default_workers (Some 4%Z)) submission_order picklable_call
    identity (Sized []) "Thread" None None None [] =
  (Ok [],
   [EvLen; EvPool ThreadPoolExecutor 8%Z; EvIter;
    EvMonitor 0 standard_tqdm None None (Some 0); EvShutdown]).
Proof.
  split; [discriminate|]. split; [discriminate|]. reflexivity.
Qed.

(** ** Instances *)

Lemma unrecognized_tag_rejected_witness :
  lower "Fork" <> "thread" /\ lower "Fork" <> "process" /\
  run_parallel false (host_default_workers (Some 4%Z)) submission_order picklable_call
    identity (Sized [1; 2]%Z) "Fork" None None None [] =
  (Raise (ValueError "executor must be 'thread' or 'process'"), []).
Proof.
  assert (Ht : lower "Fork" <> "thread") by (vm_compute; discriminate).
  assert (Hp : lower "Fork" <> "process") by (vm_compute; discriminate).
  split; [exact Ht|]. split; [exact Hp|].
  exact (unrecognized_tag_rejected false (host_default_workers (Some 4%Z))
        submission_order picklable_call
           identity (Sized [1; 2]%Z) "Fork" None None None [] Ht Hp).
Defined.

Lemma total_reported_and_single_pass_witness :
  valid_configuration "process" (Some 3%Z) /\
  totals (snd (run_parallel false (host_default_workers (Some 4%Z))
        submission_order picklable_call
                 identity (Unsized [1; 2]%Z) "process" (Some 3%Z) None None []))
    = [None] /\
  totals (snd (run_parallel false (host_default_workers (Some 4%Z))
        submission_order picklable_call
                 identity (Sized [1; 2]%Z) "process" (Some 3%Z) None None []))
    = [Some 2].
Proof.
  assert (Hv : valid_configuration "process" (Some 3%Z)).
  { split; [right; reflexivity | simpl; lia]. }
  split; [exact Hv|]. split.
  - exact (proj1 (proj2 (total_reported_and_single_pass false (host_default_workers (Some 4%Z))
             submission_order picklable_call identity (Unsized [1; 2]%Z) "process" (Some 3%Z)
             None None) Hv)).
  - exact (proj1 (proj2 (total_reported_and_single_pass false (host_default_workers (Some 4%Z))
             submission_order picklable_call identity (Sized [1; 2]%Z) "process" (Some 3%Z)
             None None) Hv)).
Defined.

Lemma tag_matching_case_insensitive_witness :
  lower "PROCESS" = "process" /\
  select_pool "PROCESS" = Ok ProcessPoolExecutor /\
  In (EvPool ProcessPoolExecutor 2%Z)
     (snd (run_parallel false (host_default_workers (Some 4%Z))
           submission_order picklable_call
             identity (Sized [1; 2]%Z) "PROCESS" (Some 2%Z) None None [])).
Proof.
  assert (Hl : lower "PROCESS" = "process") by reflexivity.
  assert (Hn : (0 < 2)%Z) by lia.
  destruct (tag_matching_case_insensitive false (host_default_workers (Some 4%Z))
        submission_order picklable_call
              identity (Sized [1; 2]%Z) "PROCESS" 2%Z None None []
              (or_intror Hl) Hn) as (Hs & Hin & _).
  split; [exact Hl|]. split; [exact Hs | exact Hin].
Defined.

Lemma empty_input_returns_empty_witness :
  valid_configuration "thread" None /\
  fst (run_parallel true (host_default_workers (Some 4%Z)) submission_order picklable_call
         fails_on_negative (Unsized []) "thread" None None None []) = Ok [].
Proof.
  assert (Hv : valid_configuration "thread" None).
  { split; [left; reflexivity | exact I]. }
  split; [exact Hv|].
  exact (proj1 (empty_input_returns_empty true (host_default_workers (Some 4%Z))
        submission_order picklable_call
           (fun futs => Permutation_refl futs)
           fails_on_negative (Unsized []) "thread" None None None eq_refl Hv)).
Defined.

(** ** Further properties of the module *)

Section RunCases.

Context {T : Type}.
Variable ipython : bool.
Variable default_workers : ExecPool -> Z.
Variable as_completed : list (Future T) -> list (Future T).
Variable pickled_call : (T -> result T) -> T -> result T.

(** The three ways a run can go. *)
Lemma run_parallel_cases (func : T -> result T) (it : iterable T)
    (executor : string) (max_workers : option Z) (desc colour : option string)
    (tr : list (event T)) :
  let r := run_parallel ipython default_workers as_completed pickled_call
             func it executor max_workers desc colour tr in
  (select_pool executor = Raise (ValueError "executor must be 'thread' or 'process'")
   /\ r = (Raise (ValueError "executor must be 'thread' or 'process'"), tr))
  \/ (exists cls n,
        select_pool executor = Ok cls /\ max_workers = Some n /\ (n <= 0)%Z
        /\ r = (Raise (ValueError "max_workers must be greater than 0"),
                tr ++ [EvLen]))
  \/ (exists cls w,
        select_pool executor = Ok cls
        /\ granted_workers default_workers cls max_workers = Some w
        /\ r = (match as_completed
              (futures_from (worker_call pickled_call cls func) 0 (items_of it)) with
                | [] => Ok []
                | _ :: _ => Raise (NameError "future_to_item")
                end,
                tr ++ [EvLen; EvPool cls w; EvIter] ++ map EvSubmit (items_of it)
                   ++ [EvMonitor (fresh_handle tr) (get_corresponding_tqdm ipython)
                         desc colour (total_of it); EvShutdown])).
Proof.
  cbv zeta. destruct (select_pool_cases executor) as [[cls Hc]|He].
  - assert (Hg : (exists w, granted_workers default_workers cls max_workers = Some w)
                 \/ granted_workers default_workers cls max_workers = None).
    { destruct (granted_workers default_workers cls max_workers); eauto. }
    destruct Hg as [[w Hw]|Hw].
    + right. right. exists cls, w. split; [exact Hc|]. split; [exact Hw|].
      now apply run_parallel_valid.
    + right. left. unfold granted_workers in Hw.
      destruct max_workers as [n|]; [|discriminate].
      destruct (Z.leb_spec n 0); [|discriminate].
      exists cls, n. repeat split; auto.
      now apply run_parallel_bad_workers with (cls := cls).
  - left. split; [exact He|]. now apply run_parallel_bad_executor.
Qed.

End RunCases.

Lemma select_pool_ok_inv executor cls :
  select_pool executor = Ok cls ->
  (lower executor = "thread" /\ cls = ThreadPoolExecutor) \/
  (lower executor = "process" /\ cls = ProcessPoolExecutor).
Proof.
  unfold select_pool, recognized.
  destruct (String.eqb_spec (lower executor) "thread") as [Ht|Ht]; simpl.
  - intros H. injection H as <-. auto.
  - destruct (String.eqb_spec (lower executor) "process") as [Hp|Hp]; simpl.
    + intros H. injection H as <-. auto.
    + discriminate.
Qed.

Lemma granted_valid default_workers executor max_workers cls w :
  select_pool executor = Ok cls ->
  granted_workers default_workers cls max_workers = Some w ->
  valid_configuration executor max_workers.
Proof.
  intros Hc Hw. split.
  - destruct (select_pool_ok_inv _ _ Hc) as [[H _]|[H _]]; auto.
  - unfold granted_workers in Hw. destruct max_workers as [n|]; [|exact I].
    destruct (Z.leb_spec n 0); [discriminate | lia].
Qed.

Lemma submitted_app {T} (tr1 tr2 : list (event T)) :
  submitted (tr1 ++ tr2) = submitted tr1 ++ submitted tr2.
Proof.
  induction tr1 as [|ev tr1 IH]; [reflexivity|].
  destruct ev; simpl; rewrite IH; reflexivity.
Qed.

Lemma submitted_submits {T} (xs : list T) : submitted (map EvSubmit xs) = xs.
Proof. induction xs as [|x xs IH]; simpl; [|rewrite IH]; reflexivity. Qed.

Lemma submits_count {T} (kind : event T -> bool) (xs : list T) :
  (forall x, kind (EvSubmit x) = false) ->
  occurrences kind (map EvSubmit xs) = 0.
Proof.
  intros Hk. induction xs as [|x xs IH]; [reflexivity|].
  unfold occurrences in *. simpl. rewrite Hk. exact IH.
Qed.


(** X1.  The outcome of a run, whatever the input: an unrecognized tag
    gives the tag's [ValueError]; otherwise a worker count that is not
    positive gives the pool's [ValueError]; otherwise the empty input gives
    the empty list and every other input [NameError].  The user function
    has no part in it: no error it raises leaves [run_parallel]. *)
Theorem run_parallel_outcome {T : Type}
    (ipython : bool) (default_workers : ExecPool -> Z)
    (as_completed : list (Future T) -> list (Future T))
    (pickled_call : (T -> result T) -> T -> result T)
    (func : T -> result T) (it : iterable T) (executor : string)
    (max_workers : option Z) (desc colour : option string) (tr : list (event T)) :
  (forall futs, Permutation (as_completed futs) futs) ->
  fst (run_parallel ipython default_workers as_completed pickled_call
         func it executor max_workers desc colour tr) =
  match select_pool executor with
  | Raise e => Raise e
  | Ok _ =>
      let go := match items_of it with
                | [] => Ok []
                | _ :: _ => Raise (NameError "future_to_item")
                end in
      match max_workers with
      | Some n =>
          if (n <=? 0)%Z
          then Raise (ValueError "max_workers must be greater than 0")
          else go
      | None => go
      end
  end.
Proof.
  intros Hperm.
  destruct (run_parallel_cases ipython default_workers as_completed pickled_call
              func it executor max_workers desc colour tr)
    as [[He ->]|[(cls & n & Hc & -> & Hn & ->)|(cls & w & Hc & Hw & ->)]].
  - rewrite He. reflexivity.
  - rewrite Hc. simpl. destruct (Z.leb_spec n 0); [reflexivity | lia].
  - rewrite Hc. cbn [fst].
    assert (Hgo : match as_completed
          (futures_from (worker_call pickled_call cls func) 0 (items_of it)) with
                  | [] => Ok []
                  | _ :: _ => Raise (NameError "future_to_item")
                  end =
                  match items_of it with
                  | [] => @Ok (list T) []
                  | _ :: _ => Raise (NameError "future_to_item")
                  end).
    { specialize (Hperm (futures_from (worker_call pickled_call cls func) 0 (items_of it))).
      destruct (items_of it) as [|x xs]; simpl in *.
      - apply Permutation_sym, Permutation_nil in Hperm. now rewrite Hperm.
      - destruct (as_completed _); [|reflexivity].
        apply Permutation_nil in Hperm. discriminate. }
    rewrite Hgo. unfold granted_workers in Hw.
    destruct max_workers as [n|]; [|reflexivity].
    destruct (n <=? 0)%Z; [discriminate | reflexivity].
Qed.

(** X2.  Whatever the input, the configuration and the completion order,
    a run advances no bar, neither its own nor one built before, and
    writes nothing to the failure channel. *)
Theorem run_parallel_never_advances_nor_logs {T : Type}
    (ipython : bool) (default_workers : ExecPool -> Z)
    (as_completed : list (Future T) -> list (Future T))
    (pickled_call : (T -> result T) -> T -> result T)
    (func : T -> result T) (it : iterable T) (executor : string)
    (max_workers : option Z) (desc colour : option string) (tr : list (event T)) :
  let tr' := snd (run_parallel ipython default_workers as_completed pickled_call
                    func it executor max_workers desc colour tr) in
  (forall h, counter h tr' = counter h tr) /\
  occurrences is_advance tr' = occurrences is_advance tr /\
  failures tr' = failures tr.
Proof.
  cbv zeta.
  destruct (run_parallel_cases ipython default_workers as_completed pickled_call
              func it executor max_workers desc colour tr)
    as [[He ->]|[(cls & n & Hc & -> & Hn & ->)|(cls & w & Hc & Hw & ->)]];
    cbn [snd].
  - auto.
  - split; [|split].
    + intros h. rewrite counter_app. simpl. lia.
    + rewrite occurrences_app. unfold occurrences. simpl. lia.
    + rewrite failures_app. simpl. now rewrite app_nil_r.
  - split; [|split].
    + intros h. rewrite !counter_app, counter_submits. simpl. lia.
    + rewrite !occurrences_app, submits_count by reflexivity.
      unfold occurrences. simpl. lia.
    + rewrite !failures_app, failures_submits. simpl. now rewrite app_nil_r.
Qed.

(** X3.  A run builds at most one pool, and a pool that was built is shut
    down: either no pool was built and none shut down, or exactly one was
    built and its shutdown is the last event of the run, also when the run
    ends in an error. *)
Theorem run_parallel_pool_shut_down {T : Type}
    (ipython : bool) (default_workers : ExecPool -> Z)
    (as_completed : list (Future T) -> list (Future T))
    (pickled_call : (T -> result T) -> T -> result T)
    (func : T -> result T) (it : iterable T) (executor : string)
    (max_workers : option Z) (desc colour : option string) :
  let tr := snd (run_parallel ipython default_workers as_completed pickled_call
                   func it executor max_workers desc colour []) in
  (occurrences is_pool tr = 0 /\ occurrences is_shutdown tr = 0) \/
  (occurrences is_pool tr = 1 /\ occurrences is_shutdown tr = 1 /\
   exists before, tr = before ++ [EvShutdown]).
Proof.
  cbv zeta.
  destruct (run_parallel_cases ipython default_workers as_completed pickled_call
              func it executor max_workers desc colour [])
    as [[He ->]|[(cls & n & Hc & -> & Hn & ->)|(cls & w & Hc & Hw & ->)]];
    cbn [snd].
  - left. split; reflexivity.
  - left. split; reflexivity.
  - right. split; [|split].
    + rewrite !occurrences_app, submits_count by reflexivity. reflexivity.
    + rewrite !occurrences_app, submits_count by reflexivity. reflexivity.
    + eexists ([EvLen; EvPool cls w; EvIter] ++ map EvSubmit (items_of it)
                ++ [EvMonitor _ _ desc colour (total_of it)]).
      simpl. repeat rewrite <- app_assoc. reflexivity.
Qed.

(** X4.  Submission is all or nothing: under a valid configuration every
    item of the input is submitted, once and in input order (also when the
    run then ends in an error); under an invalid one nothing is. *)
Theorem run_parallel_submits_all_or_nothing {T : Type}
    (ipython : bool) (default_workers : ExecPool -> Z)
    (as_completed : list (Future T) -> list (Future T))
    (pickled_call : (T -> result T) -> T -> result T)
    (func : T -> result T) (it : iterable T) (executor : string)
    (max_workers : option Z) (desc colour : option string) :
  let tr := snd (run_parallel ipython default_workers as_completed pickled_call
                   func it executor max_workers desc colour []) in
  (valid_configuration executor max_workers -> submitted tr = items_of it) /\
  (~ valid_configuration executor max_workers -> submitted tr = []).
Proof.
  cbv zeta.
  destruct (run_parallel_cases ipython default_workers as_completed pickled_call
              func it executor max_workers desc colour [])
    as [[He ->]|[(cls & n & Hc & -> & Hn & ->)|(cls & w & Hc & Hw & ->)]];
    cbn [snd].
  - split; [|reflexivity]. intros Hv.
    destruct (valid_configuration_granted default_workers _ _ Hv)
      as (cls & w & Hc & _).
    rewrite He in Hc. discriminate.
  - split; [|reflexivity]. intros [_ Hv]. simpl in Hv. lia.
  - split.
    + intros _. rewrite !submitted_app, submitted_submits. simpl.
      now rewrite app_nil_r.
    + intros Hnv. exfalso. apply Hnv.
      exact (granted_valid default_workers _ _ _ _ Hc Hw).
Qed.


(** *** Tags up to case *)

Lemma lower_char_idempotent c : lower_char (lower_char c) = lower_char c.
Proof.
  destruct c as [b0 b1 b2 b3 b4 b5 b6 b7].
  destruct b0, b1, b2, b3, b4, b5, b6, b7; reflexivity.
Qed.

Lemma lower_idempotent s : lower (lower s) = lower s.
Proof.
  induction s as [|c s IH]; [reflexivity|].
  simpl. now rewrite lower_char_idempotent, IH.
Qed.

Lemma lower_length s : String.length (lower s) = String.length s.
Proof. induction s as [|c s IH]; simpl; [|rewrite IH]; reflexivity. Qed.

(** X6.  A run sees the tag only through its lowercase form: the
    lowercased tag gives the same outcome and the same events as the tag
    itself, and so do any two tags that agree up to case. *)
Theorem run_parallel_tag_up_to_case {T : Type}
    (ipython : bool) (default_workers : ExecPool -> Z)
    (as_completed : list (Future T) -> list (Future T))
    (pickled_call : (T -> result T) -> T -> result T)
    (func : T -> result T) (it : iterable T) (executor executor' : string)
    (max_workers : option Z) (desc colour : option string) (tr : list (event T)) :
  run_parallel ipython default_workers as_completed pickled_call
    func it (lower executor) max_workers desc colour tr =
  run_parallel ipython default_workers as_completed pickled_call
    func it executor max_workers desc colour tr
  /\
  (lower executor = lower executor' ->
   run_parallel ipython default_workers as_completed pickled_call
     func it executor max_workers desc colour tr =
   run_parallel ipython default_workers as_completed pickled_call
     func it executor' max_workers desc colour tr).
Proof.
  split.
  - unfold run_parallel, select_pool. now rewrite lower_idempotent.
  - intros H. unfold run_parallel, select_pool. now rewrite H.
Qed.

(** X7.  An accepted tag has the length of the name it selects: 6
    characters for the thread pool, 7 for the process pool.  A tag of any
    other length (the empty tag, a name with spaces around it) is
    rejected. *)
Theorem accepted_tag_length (executor : string) (cls : ExecPool) :
  select_pool executor = Ok cls ->
  String.length executor =
    match cls with ThreadPoolExecutor => 6 | ProcessPoolExecutor => 7 end.
Proof.
  intros Hc. rewrite <- lower_length.
  destruct (select_pool_ok_inv _ _ Hc) as [[-> ->]|[-> ->]]; reflexivity.
Qed.

(** *** Descriptions *)

Lemma string_length_append (a b : string) :
  String.length (a ++ b)%string = String.length a + String.length b.
Proof. induction a as [|c a IH]; simpl; [|rewrite IH]; reflexivity. Qed.

Lemma string_append_inv_tail (a b s : string) :
  (a ++ s)%string = (b ++ s)%string -> a = b.
Proof.
  revert b. induction a as [|c a IH]; intros [|d b] H; simpl in H.
  - reflexivity.
  - apply (f_equal String.length) in H.
    rewrite !string_length_append in H. simpl in H.
    rewrite ?string_length_append in H. lia.
  - apply (f_equal String.length) in H.
    rewrite !string_length_append in H. simpl in H.
    rewrite ?string_length_append in H. lia.
  - injection H as -> H. f_equal. now apply IH.
Qed.

Lemma pbar_desc_length ipython desc :
  String.length (pbar_desc ipython desc) =
  String.length desc + (if ipython then 0 else 9).
Proof.
  unfold pbar_desc, is_run_from_ipython. destruct ipython; simpl; [lia|].
  rewrite !string_length_append. simpl. lia.
Qed.

(** X8.  [pbar_desc] loses nothing: in either environment two
    descriptions that are decorated alike are the same description. *)
Theorem pbar_desc_injective (ipython : bool) (desc desc' : string) :
  pbar_desc ipython desc = pbar_desc ipython desc' -> desc = desc'.
Proof.
  unfold pbar_desc, is_run_from_ipython. destruct ipython; [auto|].
  simpl. intros H. injection H as H.
  change (("" ++ ?x)%string) with x in H.
  now apply string_append_inv_tail in H.
Qed.

(** X9.  The description is left as it is exactly when the notebook bar
    is the one chosen; with the terminal bar it comes back longer by the 9
    characters of the colour codes, so never unchanged. *)
Theorem pbar_desc_plain_iff_notebook (ipython : bool) (desc : string) :
  (pbar_desc ipython desc = desc <-> get_corresponding_tqdm ipython = notebook_tqdm)
  /\ (get_corresponding_tqdm ipython = standard_tqdm ->
      String.length (pbar_desc ipython desc) = String.length desc + 9).
Proof.
  pose proof (pbar_desc_length ipython desc) as Hlen.
  unfold get_corresponding_tqdm, is_run_from_ipython in *.
  destruct ipython.
  - split; [split; reflexivity | discriminate].
  - split; [split|].
    + intros H. rewrite H in Hlen. lia.
    + discriminate.
    + intros _. exact Hlen.
Qed.

(** X10.  The two copies of the module agree: the backend chosen, the
    decorated description and the bar built are the same in both, for all
    arguments and from every state. *)
Theorem standalone_copy_agrees {T A : Type} (ipython : bool) :
  Standalone.get_corresponding_tqdm ipython = get_corresponding_tqdm ipython
  /\ (forall desc, Standalone.pbar_desc ipython desc = pbar_desc ipython desc)
  /\ (forall (xs : list A) desc colour total (tr : list (event T)),
        Standalone.progress_bar ipython xs desc colour total tr =
        setup_progress_monitor ipython xs desc colour total tr).
Proof. repeat split. Qed.

(** *** One bar, iterated to its end *)

Section OneBar.

Context {T A : Type}.

Lemma next_n_spec (k : nat) :
  forall (w : monitor A) (tr : list (event T)),
  exists wf trf,
    next_n k w tr = (Ok (take k (mon_rest w), wf), trf)
    /\ mon_handle wf = mon_handle w
    /\ mon_rest wf = drop k (mon_rest w)
    /\ mon_pending wf =
         match k with
         | 0 => mon_pending w
         | S _ => Nat.leb k (length (mon_rest w))
         end
    /\ counter (mon_handle w) trf =
         counter (mon_handle w) tr + advances (mon_pending w) (mon_rest w) k
    /\ forall h, h <> mon_handle w -> counter h trf = counter h tr.
Proof.
  induction k as [|k IH]; intros w tr.
  - exists w, tr. simpl. rewrite drop_0. repeat split; auto; lia.
  - cbn [next_n]. unfold Py.bind.
    destruct (tqdm_next_spec w tr) as (w' & trn & -> & Hh & Hr & Hp & Hc & Ho).
    cbn beta iota zeta delta [fst snd].
    destruct (IH w' trn) as (wf & trf & -> & Hh' & Hr' & Hp' & Hc' & Ho').
    exists wf, trf. unfold Py.ret. cbn beta iota zeta delta [fst snd].
    rewrite Hh, Hr, Hp in *. rewrite yielded_take.
    split; [reflexivity|]. split; [exact Hh'|]. split; [|split; [|split]].
    + rewrite Hr'. destruct (mon_rest w); simpl; [now rewrite drop_nil | reflexivity].
    + rewrite Hp'. destruct k as [|k'].
      * destruct (mon_rest w); reflexivity.
      * destruct (mon_rest w); reflexivity.
    + rewrite Hc', Hc, <- advances_step. lia.
    + intros h Hne. rewrite Ho', Ho by assumption. reflexivity.
Qed.

Lemma tqdm_new_transparent (b : backend) :
  wrap_is_transparent (T:=T) (A:=A) (tqdm_new b).
Proof.
  intros xs desc colour total tr0 k Hk.
  set (h := fresh_handle tr0).
  set (tr1 := tr0 ++ [EvMonitor h b desc colour total]).
  destruct (next_n_spec k (mkMonitor h xs false) tr1)
    as (wf & trf & Hn & Hh & Hr & Hp & Hc & Ho).
  simpl in Hn, Hh, Hr, Hp, Hc, Ho.
  assert (H0 : forall h', counter h' tr1 = counter h' tr0).
  { intros h'. unfold tr1. rewrite counter_app. simpl. lia. }
  rewrite take_ge in Hn by lia. rewrite drop_ge in Hr by lia.
  assert (Hp' : mon_pending wf = false).
  { rewrite Hp. destruct k; [lia|]. apply Nat.leb_gt. lia. }
  exists (mkMonitor h xs false), tr1, wf, trf. simpl.
  split; [reflexivity|]. split; [exact Hn|]. split; [|split].
  - rewrite Hc, H0, advances_fresh, (counter_fresh h tr0) by (unfold h; lia). lia.
  - intros h' Hne. rewrite Ho, H0 by assumption. reflexivity.
  - destruct wf as [hf rest pending]. simpl in Hh, Hr, Hp'. subst.
    reflexivity.
Qed.

End OneBar.

(** X11.  Wrapping changes nothing in what is iterated: the bar built by
    [progress_bar], or by [setup_progress_monitor], around a list yields
    the list itself, whatever total it was given; at the end it has counted
    every element, no other bar has moved, and it stays exhausted. *)
Theorem wrapped_list_iterates_as_itself {T A : Type} (ipython : bool) :
  wrap_is_transparent (T:=T) (A:=A) (Standalone.progress_bar ipython) /\
  wrap_is_transparent (T:=T) (A:=A) (setup_progress_monitor ipython).
Proof.
  split.
  - unfold Standalone.progress_bar. apply tqdm_new_transparent.
  - unfold setup_progress_monitor. apply tqdm_new_transparent.
Qed.

(** *** Successive runs *)

(** X13.  Nothing is kept from one run to the next: of two runs under
    valid configurations, one after the other, each builds its own pool and
    shuts it down, and each builds its own bar, the second under a handle
    the first did not use. *)
Theorem successive_runs_share_nothing {T : Type}
    (ipython : bool) (default_workers : ExecPool -> Z)
    (as_completed : list (Future T) -> list (Future T))
    (pickled_call : (T -> result T) -> T -> result T)
    (func1 func2 : T -> result T) (it1 it2 : iterable T)
    (executor1 executor2 : string) (workers1 workers2 : option Z)
    (desc1 colour1 desc2 colour2 : option string) (tr : list (event T)) :
  valid_configuration executor1 workers1 ->
  valid_configuration executor2 workers2 ->
  let tr1 := snd (run_parallel ipython default_workers as_completed pickled_call
                    func1 it1 executor1 workers1 desc1 colour1 tr) in
  let tr2 := snd (run_parallel ipython default_workers as_completed pickled_call
                    func2 it2 executor2 workers2 desc2 colour2 tr1) in
  let h := fresh_handle tr in
  In (EvMonitor h (get_corresponding_tqdm ipython) desc1 colour1 (total_of it1)) tr2
  /\ In (EvMonitor (S h) (get_corresponding_tqdm ipython) desc2 colour2 (total_of it2)) tr2
  /\ occurrences is_monitor tr2 = occurrences is_monitor tr + 2
  /\ occurrences is_pool tr2 = occurrences is_pool tr + 2
  /\ occurrences is_shutdown tr2 = occurrences is_shutdown tr + 2.
Proof.
  intros Hv1 Hv2.
  destruct (valid_configuration_granted default_workers _ _ Hv1)
    as (cls1 & w1 & Hc1 & Hw1).
  destruct (valid_configuration_granted default_workers _ _ Hv2)
    as (cls2 & w2 & Hc2 & Hw2).
  cbv zeta.
  rewrite (run_parallel_valid _ _ _ _ func1 it1 executor1 workers1 desc1 colour1
             cls1 w1 tr Hc1 Hw1).
  cbn [snd].
  rewrite (run_parallel_valid _ _ _ _ func2 it2 executor2 workers2 desc2 colour2
             cls2 w2 _ Hc2 Hw2).
  cbn [snd].
  rewrite !fresh_handle_app, fresh_handle_submits.
  replace (Nat.max (fresh_handle tr) _) with (S (fresh_handle tr)) by (simpl; lia).
  split; [|split; [|split; [|split]]].
  - apply in_or_app. left. apply in_or_app. right.
    apply in_or_app. right. apply in_or_app. right. simpl. auto.
  - apply in_or_app. right.
    apply in_or_app. right. apply in_or_app. right. simpl. auto.
  - rewrite !occurrences_app, !submits_count by reflexivity.
    unfold occurrences. simpl. lia.
  - rewrite !occurrences_app, !submits_count by reflexivity.
    unfold occurrences. simpl. lia.
  - rewrite !occurrences_app, !submits_count by reflexivity.
    unfold occurrences. simpl. lia.
Qed.

(** *** Instances of the further properties *)

Lemma run_parallel_outcome_witness :
  (forall futs : list (Future Z), Permutation (submission_order futs) futs) /\
  fst (run_parallel false (host_default_workers (Some 4%Z)) submission_order picklable_call
         fails_on_negative (Sized [1; -1]%Z) "thread" (Some 2%Z) None None [])
    = Raise (NameError "future_to_item").
Proof.
  assert (Hperm : forall futs : list (Future Z),
            Permutation (submission_order futs) futs)
    by (intros futs; apply Permutation_refl).
  split; [exact Hperm|].
  exact (run_parallel_outcome false (host_default_workers (Some 4%Z))
        submission_order picklable_call
           fails_on_negative (Sized [1; -1]%Z) "thread" (Some 2%Z) None None []
           Hperm).
Defined.

Lemma run_parallel_submits_all_or_nothing_witness :
  (valid_configuration "thread" None /\
   submitted (snd (run_parallel false (host_default_workers (Some 4%Z))
         submission_order picklable_call
                     fails_on_negative (Sized [1; -1]%Z) "thread" None None None []))
     = [1; -1]%Z) /\
  (~ valid_configuration "thread" (Some 0%Z) /\
   submitted (snd (run_parallel false (host_default_workers (Some 4%Z))
         submission_order picklable_call
                     fails_on_negative (Sized [1; -1]%Z) "thread" (Some 0%Z)
                     None None []))
     = []).
Proof.
  assert (Hv : valid_configuration "thread" None).
  { split; [left; reflexivity | exact I]. }
  assert (Hn : ~ valid_configuration "thread" (Some 0%Z)).
  { intros [_ H]. simpl in H. lia. }
  split; (split; [assumption|]).
  - exact (proj1 (run_parallel_submits_all_or_nothing false (host_default_workers (Some 4%Z))
             submission_order picklable_call fails_on_negative (Sized [1; -1]%Z) "thread" None
             None None) Hv).
  - exact (proj2 (run_parallel_submits_all_or_nothing false (host_default_workers (Some 4%Z))
             submission_order picklable_call fails_on_negative (Sized [1; -1]%Z) "thread"
             (Some 0%Z) None None) Hn).
Defined.


Lemma run_parallel_tag_up_to_case_witness :
  lower "Thread" = lower "THREAD" /\
  run_parallel false (host_default_workers (Some 4%Z)) submission_order picklable_call
    identity (Sized [7; 8]%Z) "Thread" None None None [] =
  run_parallel false (host_default_workers (Some 4%Z)) submission_order picklable_call
    identity (Sized [7; 8]%Z) "THREAD" None None None [].
Proof.
  assert (Hl : lower "Thread" = lower "THREAD") by reflexivity.
  split; [exact Hl|].
  exact (proj2 (run_parallel_tag_up_to_case false (host_default_workers (Some 4%Z))
        submission_order picklable_call
           identity (Sized [7; 8]%Z) "Thread" "THREAD" None None None []) Hl).
Defined.

Lemma accepted_tag_length_witness :
  select_pool "Process" = Ok ProcessPoolExecutor /\ String.length "Process" = 7.
Proof.
  assert (Hc : select_pool "Process" = Ok ProcessPoolExecutor) by reflexivity.
  split; [exact Hc|].
  exact (accepted_tag_length "Process" ProcessPoolExecutor Hc).
Defined.

Lemma pbar_desc_injective_witness :
  pbar_desc false "load" = pbar_desc false "load" /\ "load" = "load".
Proof.
  assert (H : pbar_desc false "load" = pbar_desc false "load") by reflexivity.
  split; [exact H|].
  exact (pbar_desc_injective false "load" "load" H).
Defined.

Lemma pbar_desc_plain_iff_notebook_witness :
  (get_corresponding_tqdm true = notebook_tqdm /\ pbar_desc true "load" = "load") /\
  (get_corresponding_tqdm false = standard_tqdm /\
   String.length (pbar_desc false "load") = String.length "load" + 9).
Proof.
  assert (Hn : get_corresponding_tqdm true = notebook_tqdm) by reflexivity.
  assert (Hs : get_corresponding_tqdm false = standard_tqdm) by reflexivity.
  split; (split; [assumption|]).
  - exact (proj2 (proj1 (pbar_desc_plain_iff_notebook true "load")) Hn).
  - exact (proj2 (pbar_desc_plain_iff_notebook false "load") Hs).
Defined.

Lemma wrapped_list_iterates_as_itself_witness :
  2 < 3 /\
  exists w tr1 wf trf,
    Standalone.progress_bar (T:=unit) false ["a"; "b"] None None (Some 5) []
      = (Ok w, tr1)
    /\ next_n 3 w tr1 = (Ok (["a"; "b"], wf), trf)
    /\ counter (mon_handle w) trf = 2
    /\ (forall h, h <> mon_handle w -> counter h trf = counter h (@nil (event unit)))
    /\ tqdm_next wf trf = (Ok (None, wf), trf).
Proof.
  assert (Hk : 2 < 3) by lia.
  split; [exact Hk|].
  exact (proj1 (wrapped_list_iterates_as_itself false)
           ["a"; "b"] None None (Some 5) [] 3 Hk).
Defined.

Lemma successive_runs_share_nothing_witness :
  valid_configuration "thread" None /\
  valid_configuration "Process" (Some 2%Z) /\
  occurrences is_shutdown
    (snd (run_parallel true (host_default_workers (Some 4%Z))
          submission_order picklable_call
            fails_on_negative (Unsized [1; -1]%Z) "Process" (Some 2%Z) None None
            (snd (run_parallel true (host_default_workers (Some 4%Z))
                  submission_order picklable_call
                    identity (Sized [7; 8]%Z) "thread" None None None []))))
    = 2.
Proof.
  assert (Hv1 : valid_configuration "thread" None).
  { split; [left; reflexivity | exact I]. }
  assert (Hv2 : valid_configuration "Process" (Some 2%Z)).
  { split; [right; reflexivity | simpl; lia]. }
  split; [exact Hv1|]. split; [exact Hv2|].
  exact (proj2 (proj2 (proj2 (proj2
           (successive_runs_share_nothing true (host_default_workers (Some 4%Z))
                 submission_order picklable_call
              identity fails_on_negative (Sized [7; 8]%Z) (Unsized [1; -1]%Z)
              "thread" "Process" None (Some 2%Z) None None None None []
              Hv1 Hv2))))).
Defined.
